(** * fetch_history: the conversation-history CLI of atomicAqua

    A shallow embedding of [src/atomicAqua/src/fetch_history.py]
    ([format_event], [fetch_history], [main]) and the properties of its
    page-fetch-and-render behaviour.

    Python values are the JSON-like data boto3 hands back; an operation that
    Python would abort with an exception returns [Raise].  The boto3 paginator
    is the external collaborator: it is a parameter of the development. *)

From Stdlib Require Import ZArith List Bool Arith Lia.
From Stdlib Require Import Strings.String Strings.Ascii.
From Stdlib Require Import Numbers.DecimalString.
Import ListNotations.

Local Open Scope list_scope.
Local Open Scope string_scope.

Set Warnings "-register-all".

(** ** Python values *)

(** The values an event can hold.  A [dict] keeps its insertion order (it is
    what iteration and [str()] follow), so it is an association list with
    string keys, as parsed JSON has them; [py_get] finds the first binding.
    [VObj] stands for an object of any other class (a [datetime], as boto3
    gives for [createdAt]): it is truthy, is no container and has no string
    methods, and is known by what [str()] and [repr()] make of it. *)
Inductive value : Type :=
| VNone
| VBool (b : bool)
| VInt (z : Z)
| VStr (s : string)
| VList (l : list value)
| VDict (d : list (string * value))
| VObj (shown : string) (repred : string).

Inductive exn : Type :=
| TypeError
| AttributeError
| KeyError (key : string)
| External (name : string) (message : string).

(** Outcome of a computation: a value or a raised exception. *)
Inductive result (A : Type) : Type :=
| Ok (a : A)
| Raise (e : exn).

Arguments Ok {A} a.
Arguments Raise {A} e.

Definition bind {A B : Type} (r : result A) (k : A -> result B) : result B :=
  match r with
  | Ok a => k a
  | Raise e => Raise e
  end.

Notation "x <- c ;; k" := (bind c (fun x => k))
  (at level 61, c at next level, right associativity).

(** ** Strings

    A string is the sequence of its characters, each an [ascii].  The model
    is exact on ASCII text, which is what identifiers, roles and cursors are:
    [upper] raises the letters a-z and [repr_str] escapes the codes below 128
    as Python does; a code from 128 on is kept as it is by both. *)

(** [sep.join(parts)] *)
Fixpoint join (sep : string) (parts : list string) : string :=
  match parts with
  | [] => ""
  | [p] => p
  | p :: rest => p ++ sep ++ join sep rest
  end.

Fixpoint starts_with (p s : string) : bool :=
  match p, s with
  | EmptyString, _ => true
  | String a p', String b s' => Ascii.eqb a b && starts_with p' s'
  | String _ _, EmptyString => false
  end.

(** [sub in s] for two strings *)
Fixpoint contains_sub (sub s : string) : bool :=
  starts_with sub s ||
  match s with
  | EmptyString => false
  | String _ s' => contains_sub sub s'
  end.

Fixpoint string_map (f : ascii -> ascii) (s : string) : string :=
  match s with
  | EmptyString => EmptyString
  | String a s' => String (f a) (string_map f s')
  end.

Definition upper_ascii (a : ascii) : ascii :=
  let n := nat_of_ascii a in
  if (97 <=? n)%nat && (n <=? 122)%nat then ascii_of_nat (n - 32) else a.

(** [s.upper()] *)
Definition upper (s : string) : string := string_map upper_ascii s.

Fixpoint chars (s : string) : list string :=
  match s with
  | EmptyString => []
  | String a s' => String a EmptyString :: chars s'
  end.

Fixpoint has_char (c : ascii) (s : string) : bool :=
  match s with
  | EmptyString => false
  | String a s' => Ascii.eqb a c || has_char c s'
  end.

Definition hex_digit (n : nat) : ascii :=
  if (n <? 10)%nat then ascii_of_nat (48 + n) else ascii_of_nat (87 + n).

Definition squote : ascii := ascii_of_nat 39.
Definition dquote : ascii := ascii_of_nat 34.
Definition backslash : ascii := ascii_of_nat 92.

Definition escape_char (quote : ascii) (a : ascii) : string :=
  let n := nat_of_ascii a in
  if Ascii.eqb a quote || Ascii.eqb a backslash then
    String backslash (String a EmptyString)
  else if (n =? 9)%nat then String backslash "t"
  else if (n =? 10)%nat then String backslash "n"
  else if (n =? 13)%nat then String backslash "r"
  else if (n <? 32)%nat || (n =? 127)%nat then
    String backslash
      (String "x" (String (hex_digit (n / 16)) (String (hex_digit (n mod 16)) EmptyString)))
  else String a EmptyString.

Fixpoint escape (quote : ascii) (s : string) : string :=
  match s with
  | EmptyString => EmptyString
  | String a s' => escape_char quote a ++ escape quote s'
  end.

(** [repr(s)] of a string: single quotes, unless the string holds a single
    quote and no double quote. *)
Definition repr_str (s : string) : string :=
  let quote := if has_char squote s && negb (has_char dquote s) then dquote else squote in
  String quote (escape quote s ++ String quote EmptyString).

Definition str_of_Z (z : Z) : string := NilZero.string_of_int (Z.to_int z).
Definition str_of_nat (n : nat) : string := NilZero.string_of_uint (Nat.to_uint n).

(** [repr(v)] *)
Fixpoint py_repr (v : value) : string :=
  match v with
  | VNone => "None"
  | VBool true => "True"
  | VBool false => "False"
  | VInt z => str_of_Z z
  | VStr s => repr_str s
  | VList l => "[" ++ join ", " (map py_repr l) ++ "]"
  | VDict d =>
      "{" ++ join ", " (map (fun kv => repr_str (fst kv) ++ ": " ++ py_repr (snd kv)) d) ++ "}"
  | VObj _ r => r
  end.

(** What an f-string puts for [{v}]: [format(v, "")], which is [str(v)]. *)
Definition py_str (v : value) : string :=
  match v with
  | VStr s => s
  | VObj s _ => s
  | _ => py_repr v
  end.

(** Truth value, as [if v:] tests it. *)
Definition truthy (v : value) : bool :=
  match v with
  | VNone => false
  | VBool b => b
  | VInt z => negb (z =? 0)%Z
  | VStr s => negb (s =? "")
  | VList l => match l with [] => false | _ => true end
  | VDict d => match d with [] => false | _ => true end
  | VObj _ _ => true
  end.

(** ** Operations on values *)

Fixpoint lookup (k : string) (d : list (string * value)) : option value :=
  match d with
  | [] => None
  | (k', v) :: d' => if k' =? k then Some v else lookup k d'
  end.

Definition dict_get (d : list (string * value)) (k : string) (default : value) : value :=
  match lookup k d with
  | Some v => v
  | None => default
  end.

Definition has_key (k : string) (d : list (string * value)) : bool :=
  match lookup k d with
  | Some _ => true
  | None => false
  end.

(** [o.get(k, default)]: only a dict has the method. *)
Definition py_get (o : value) (k : string) (default : value) : result value :=
  match o with
  | VDict d => Ok (dict_get d k default)
  | _ => Raise AttributeError
  end.

(** The items [for x in o] runs through. *)
Definition py_iter (o : value) : result (list value) :=
  match o with
  | VList l => Ok l
  | VDict d => Ok (map (fun kv => VStr (fst kv)) d)
  | VStr s => Ok (map VStr (chars s))
  | _ => Raise TypeError
  end.

Definition is_str (k : string) (v : value) : bool :=
  match v with
  | VStr s => s =? k
  | _ => false
  end.

(** [k in o] for a string [k]. *)
Definition py_contains (k : string) (o : value) : result bool :=
  match o with
  | VDict d => Ok (has_key k d)
  | VList l => Ok (existsb (is_str k) l)
  | VStr s => Ok (contains_sub k s)
  | _ => Raise TypeError
  end.

(** [o[k]] for a string [k] that [k in o] has found: a list and a string take
    integer indices only. *)
Definition py_getitem (o : value) (k : string) : result value :=
  match o with
  | VDict d => match lookup k d with Some v => Ok v | None => Raise (KeyError k) end
  | _ => Raise TypeError
  end.

(** [s.upper()] on a value: only a string has the method. *)
Definition py_upper (v : value) : result string :=
  match v with
  | VStr s => Ok (upper s)
  | _ => Raise AttributeError
  end.

(** [" ".join(parts)]: every part must be a string. *)
Fixpoint as_strings (parts : list value) : result (list string) :=
  match parts with
  | [] => Ok []
  | VStr s :: rest => ss <- as_strings rest ;; Ok (s :: ss)
  | _ :: _ => Raise TypeError
  end.

Definition py_join (sep : string) (parts : list value) : result string :=
  ss <- as_strings parts ;; Ok (join sep ss).

(** ** format_event *)

Definition nl : string := String (ascii_of_nat 10) EmptyString.

(** The comprehension
    [[c.get("text", "") for c in content if isinstance(c, dict) and "text" in c]]. *)
Fixpoint text_parts (content : list value) : list value :=
  match content with
  | [] => []
  | VDict c :: rest =>
      if has_key "text" c then dict_get c "text" (VStr "") :: text_parts rest
      else text_parts rest
  | _ :: rest => text_parts rest
  end.

(** One turn of the loop over the payload: the line a payload item appends to
    [lines], if it appends one. *)
Definition payload_line (payload_item : value) : result (option string) :=
  found <- py_contains "conversational" payload_item ;;
  if found : bool then
    conv <- py_getitem payload_item "conversational" ;;
    r <- py_get conv "role" (VStr "UNKNOWN") ;;
    role <- py_upper r ;;
    content <- py_get conv "content" (VStr "") ;;
    content <- match content with
               | VList parts => joined <- py_join " " (text_parts parts) ;; Ok (VStr joined)
               | _ => Ok content
               end ;;
    Ok (Some ("[" ++ role ++ "] " ++ py_str content))
  else Ok None.

Fixpoint payload_lines (items : list value) (lines : list string) : result (list string) :=
  match items with
  | [] => Ok lines
  | payload_item :: rest =>
      line <- payload_line payload_item ;;
      payload_lines rest (match line with Some l => (lines ++ [l])%list | None => lines end)
  end.

Definition event_head (event_id timestamp : value) : string :=
  "Event " ++ py_str event_id ++ " (" ++ py_str timestamp ++ ")".

Definition placeholder : string := "(no conversational content)".

Definition format_event (event : value) : result string :=
  event_id <- py_get event "eventId" (VStr "unknown") ;;
  timestamp <- py_get event "createdAt" (VStr "") ;;
  payload <- py_get event "payload" (VList []) ;;
  items <- py_iter payload ;;
  lines <- payload_lines items [] ;;
  match lines with
  | _ :: _ =>
      Ok (event_head event_id timestamp ++ ":" ++ nl
          ++ join nl (map (fun line => "  " ++ line) lines))
  | [] => Ok (event_head event_id timestamp ++ ": " ++ placeholder)
  end.

(** *** The shape of an event

    The data model of the events the service stores, with every field
    optional: the payload is a list of mappings; a [conversational] entry is a
    mapping whose [role], when there is one, is a string; a [text] of a
    fragment, when there is one, is a string.  Identifier, timestamp and a
    content that is not a list may be any value. *)

Definition absent_or_str (o : option value) : bool :=
  match o with
  | None => true
  | Some (VStr _) => true
  | Some _ => false
  end.

Definition fragment_ok (c : value) : bool :=
  match c with
  | VDict d => absent_or_str (lookup "text" d)
  | _ => true
  end.

Definition content_ok (o : option value) : bool :=
  match o with
  | Some (VList parts) => forallb fragment_ok parts
  | _ => true
  end.

Definition conversational_ok (conv : value) : bool :=
  match conv with
  | VDict c => absent_or_str (lookup "role" c) && content_ok (lookup "content" c)
  | _ => false
  end.

Definition item_ok (payload_item : value) : bool :=
  match payload_item with
  | VDict d =>
      match lookup "conversational" d with
      | Some conv => conversational_ok conv
      | None => true
      end
  | _ => false
  end.

Definition payload_ok (o : option value) : bool :=
  match o with
  | None => true
  | Some (VList items) => forallb item_ok items
  | Some _ => false
  end.

Definition well_formed (event : value) : bool :=
  match event with
  | VDict d => payload_ok (lookup "payload" d)
  | _ => false
  end.

(** The [text] values of a sequence of fragments, in order; a fragment
    without a [text] gives none. *)
Definition fragment_text (c : value) : list string :=
  match c with
  | VDict d =>
      match lookup "text" d with
      | Some (VStr t) => [t]
      | _ => []
      end
  | _ => []
  end.

Definition fragment_texts (parts : list value) : list string :=
  flat_map fragment_text parts.

(** A fragment as the data model has it: a mapping whose [text], when there is
    one, is a string. *)
Definition is_fragment (c : value) : Prop :=
  exists d, c = VDict d /\ absent_or_str (lookup "text" d) = true.

(** An event whose only fragment text is a number. *)
Definition numeric_text_event : value :=
  VDict [("eventId", VStr "e9");
         ("payload",
          VList [VDict [("conversational",
                         VDict [("role", VStr "user");
                                ("content", VList [VDict [("text", VInt 5)]])])]])].

(** ** The command-line tool and its world *)

(** What [boto3.client(service, region_name=region)] is asked for. *)
Record client : Type := {
  service_name : string;
  region_name : string
}.

(** The keyword arguments of [paginator.paginate]; [PageSize] and
    [StartingToken] are the entries of [PaginationConfig]. *)
Record request : Type := {
  memoryId : string;
  actorId : string;
  sessionId : string;
  includePayloads : bool;
  PageSize : Z;
  StartingToken : option string
}.

(** What the tool does to the SDK, in order: it makes a client, asks the
    paginator of an operation for a page iterator, and pulls pages from that
    iterator; each pull is one request to the service. *)
Inductive api_event : Type :=
| CreateClient (c : client)
| Paginate (operation : string) (req : request)
| NextPage.

Record world : Type := {
  stdout : list string;
  api_log : list api_event
}.

Definition start : world := {| stdout := []; api_log := [] |}.

Definition printed (w : world) (out : list string) : world :=
  {| stdout := (stdout w ++ out)%list; api_log := api_log w |}.

Definition logged (w : world) (es : list api_event) : world :=
  {| stdout := stdout w; api_log := (api_log w ++ es)%list |}.

Definition is_next_page (e : api_event) : bool :=
  match e with
  | NextPage => true
  | _ => false
  end.

(** The page requests a run has issued. *)
Definition page_requests (w : world) : nat :=
  List.length (filter is_next_page (api_log w)).

(** A computation with effects on the world; [None] is a loop that was given
    too little fuel. *)
Definition io (A : Type) : Type := world -> option (world * result A).

Definition ret {A : Type} (a : A) : io A := fun w => Some (w, Ok a).

Definition raise {A : Type} (e : exn) : io A := fun w => Some (w, Raise e).

Definition io_bind {A B : Type} (m : io A) (k : A -> io B) : io B :=
  fun w =>
    match m w with
    | Some (w', Ok a) => k a w'
    | Some (w', Raise e) => Some (w', Raise e)
    | None => None
    end.

Notation "x <~ c ;; k" := (io_bind c (fun x => k))
  (at level 61, c at next level, right associativity).
Notation "c ;;; k" := (io_bind c (fun _ => k))
  (at level 61, right associativity).

Definition lift {A : Type} (r : result A) : io A := fun w => Some (w, r).

(** [print(s)]: the world keeps the argument of each call. *)
Definition print (s : string) : io unit := fun w => Some (printed w [s], Ok tt).

Definition log_api (e : api_event) : io unit := fun w => Some (logged w [e], Ok tt).

(** What is written to standard output: [print] ends each argument with a
    newline. *)
Definition stdout_text (w : world) : string :=
  String.concat "" (map (fun s => s ++ nl) (stdout w)).

(** A computation that ends, and leaves the SDK alone. *)
Definition quiet {A : Type} (m : io A) : Prop :=
  forall w, exists w' r, m w = Some (w', r) /\ api_log w' = api_log w.

(** One pull of an iterator. *)
Inductive step (I : Type) : Type :=
| Yield (page : value) (it : I)
| StopIteration
| Fails (e : exn).

Arguments Yield {I} page it.
Arguments StopIteration {I}.
Arguments Fails {I} e.

(** How the body of a [for] loop ends a turn. *)
Inductive flow (A : Type) : Type :=
| Break (a : A)
| Continue (a : A).

Arguments Break {A} a.
Arguments Continue {A} a.

Definition dquote_s : string := String dquote EmptyString.

Definition header (user_id session_id : string) : string :=
  "=== Conversation History (user: " ++ user_id ++ ", session: " ++ session_id ++ ") ===" ++ nl.

Definition summary (n : nat) : string :=
  "--- Showing " ++ str_of_nat n ++ " event(s) ---".

Definition more_notice : string :=
  nl ++ "More events available. Use --next-token to fetch next page:".

Definition cursor_line (resume_token : value) : string :=
  "--next-token " ++ dquote_s ++ py_str resume_token ++ dquote_s.

Definition no_more_notice : string := nl ++ "No more events.".

Definition no_events_notice : string := "No events found.".

Definition agentcore_client (region : string) : client :=
  {| service_name := "bedrock-agentcore"; region_name := region |}.

(** Lines 60-62: [StartingToken] is set when [next_token] is truthy. *)
Definition starting_token (next_token : option string) : option string :=
  match next_token with
  | Some t => if truthy (VStr t) then Some t else None
  | None => None
  end.

Definition list_events_request (memory_id user_id session_id : string) (limit : Z)
    (next_token : option string) : request :=
  {| memoryId := memory_id;
     actorId := user_id;
     sessionId := session_id;
     includePayloads := true;
     PageSize := limit;
     StartingToken := starting_token next_token |}.

(** The command line as [argparse] reads it: the two required flags and the
    four optional ones, each given or not.  These are the command lines
    [argparse] accepts; on any other (a required flag left out, a [--limit]
    that is no integer, an unknown flag, [--help]) [parse_args()] ends the
    process before [main] does anything else. *)
Record flags : Type := {
  given_user_id : string;
  given_session_id : string;
  given_limit : option Z;
  given_next_token : option string;
  given_memory_id : option string;
  given_region : option string
}.

Record namespace : Type := {
  user_id : string;
  session_id : string;
  limit : Z;
  next_token : option string;
  memory_id : option string;
  region : option string
}.

(** [parser.parse_args()] with the defaults of the six [add_argument]
    calls. *)
Definition parse_args (f : flags) : namespace :=
  {| user_id := given_user_id f;
     session_id := given_session_id f;
     limit := match given_limit f with Some n => n | None => 20%Z end;
     next_token := given_next_token f;
     memory_id := given_memory_id f;
     region := given_region f |}.

Section HistoryFetcher.

(** The SDK: the state of a page iterator, the iterator [paginate] makes,
    what one pull of it gives, and its [resume_token] attribute. *)
Variable iterator : Type.
Variable paginate : client -> string -> request -> iterator.
Variable next : iterator -> step iterator.
Variable resume_token_of : iterator -> value.

Definition create_agentcore_client (region : string) : io client :=
  let c := agentcore_client region in
  log_api (CreateClient c) ;;; ret c.

Definition pull (it : iterator) : io (option (value * iterator)) :=
  log_api NextPage ;;;
  match next it with
  | Yield page it' => ret (Some (page, it'))
  | StopIteration => ret None
  | Fails e => raise e
  end.

(** [for page in it: body], the body ending each turn with [break] or not. *)
Fixpoint for_each {A : Type} (fuel : nat) (it : iterator)
    (body : value -> iterator -> A -> io (flow A)) (acc : A) : io A :=
  match fuel with
  | O => fun _ => None
  | S fuel' =>
      nx <~ pull it ;;
      match nx with
      | None => ret acc
      | Some (page, it') =>
          f <~ body page it' acc ;;
          match f with
          | Break a => ret a
          | Continue a => for_each fuel' it' body a
          end
      end
  end.

(** The body of the loop of lines 76-80. *)
Definition collect (page : value) (page_iterator : iterator)
    (acc : list value * value) : io (flow (list value * value)) :=
  let all_events := fst acc in
  events <~ lift (py_get page "events" (VList [])) ;;
  items <~ lift (py_iter events) ;;
  ret (Break ((all_events ++ items)%list, resume_token_of page_iterator)).

(** Lines 55-80 of [fetch_history]: the events of the first page and the
    resume token read after it. *)
Definition fetch_page (fuel : nat) (memory_id region user_id session_id : string)
    (limit : Z) (next_token : option string) : io (list value * value) :=
  c <~ create_agentcore_client region ;;
  let req := list_events_request memory_id user_id session_id limit next_token in
  log_api (Paginate "list_events" req) ;;;
  let page_iterator := paginate c "list_events" req in
  for_each fuel page_iterator collect ([], VNone).

Fixpoint print_events (all_events : list value) : io unit :=
  match all_events with
  | [] => ret tt
  | event :: rest =>
      formatted <~ lift (format_event event) ;;
      print formatted ;;;
      print "" ;;;
      print_events rest
  end.

(** Lines 82-99 of [fetch_history]. *)
Definition show_page (user_id session_id : string) (all_events : list value)
    (resume_token : value) : io unit :=
  match all_events with
  | [] => print no_events_notice
  | _ :: _ =>
      print (header user_id session_id) ;;;
      print_events all_events ;;;
      print (summary (List.length all_events)) ;;;
      if truthy resume_token then
        print more_notice ;;;
        print (cursor_line resume_token)
      else print no_more_notice
  end.

Definition fetch_history (fuel : nat) (memory_id region user_id session_id : string)
    (limit : Z) (next_token : option string) : io unit :=
  fetched <~ fetch_page fuel memory_id region user_id session_id limit next_token ;;
  show_page user_id session_id (fst fetched) (snd fetched).

Definition main (fuel : nat) (f : flags) : io unit :=
  let args := parse_args f in
  let memory_id := "aqua_memory_v1-ou5CPqEFsu" in
  let region := "eu-central-1" in
  fetch_history fuel memory_id region (user_id args) (session_id args)
    (limit args) (next_token args).

End HistoryFetcher.

(** ** A model service *)

(** A service that keeps one conversation and pages through it, with the page
    iterator of the SDK in front of it.  A cursor is the decimal offset of the
    next event; a page carries it as [nextToken] when events remain.  The
    [resume_token] attribute of the iterator stays None: the SDK sets it only
    when [MaxItems] cuts a listing short, and the tool passes [PageSize] and no
    [MaxItems].  It serves as the concrete collaborator where the tool is run
    on examples. *)
Module Store.

Record iterator : Type := {
  source : result (list value);
  size : nat;
  pos : nat;
  exhausted : bool;
  resume_token : value
}.

Definition offset_of (token : option string) : option nat :=
  match token with
  | None => Some 0
  | Some t =>
      match NilZero.uint_of_string t with
      | Some d => Some (Nat.of_uint d)
      | None => None
      end
  end.

Section Service.

Variable memory : string.
Variable actor : string.
Variable session : string.
Variable conversation : list value.

Definition known (req : request) : bool :=
  (memoryId req =? memory) && (actorId req =? actor) && (sessionId req =? session).

Definition paginate (c : client) (operation : string) (req : request) : iterator :=
  let src :=
    if negb (known req) then Raise (External "ResourceNotFoundException" "Memory not found")
    else match offset_of (StartingToken req) with
         | None => Raise (External "ValidationException" "Invalid token")
         | Some _ => Ok conversation
         end in
  {| source := src;
     size := Z.to_nat (PageSize req);
     pos := match offset_of (StartingToken req) with Some n => n | None => 0 end;
     exhausted := false;
     resume_token := VNone |}.

Definition next (it : iterator) : step iterator :=
  match source it with
  | Ok events =>
      if exhausted it then StopIteration
      else
        let shown := firstn (size it) (skipn (pos it) events) in
        let pos' := pos it + List.length shown in
        let more := (pos' <? List.length events)%nat in
        let token := if more then VStr (str_of_nat pos') else VNone in
        Yield (VDict [("events", VList shown); ("nextToken", token)])
              {| source := source it; size := size it; pos := pos';
                 exhausted := negb more; resume_token := resume_token it |}
  | Raise e => Fails e
  end.

End Service.

End Store.

(** ** Sample data *)

Definition demo_time : value :=
  VObj "2024-05-01 10:00:00+00:00" "datetime.datetime(2024, 5, 1, 10, 0, tzinfo=tzutc())".

Definition ev_fields (id role : string) (content : value) : list (string * value) :=
  [("eventId", VStr id); ("createdAt", demo_time);
   ("payload", VList [VDict [("conversational",
                              VDict [("role", VStr role); ("content", content)])]])].

Definition ev (id role : string) (content : value) : value :=
  VDict (ev_fields id role content).

Definition demo_parts : list value :=
  [VDict [("text", VStr "hello")]; VDict [("image", VStr "cat.png")];
   VDict [("text", VStr "there")]].

Definition demo_conv : list (string * value) :=
  [("role", VStr "assistant"); ("content", VList demo_parts)].

Definition demo_item : list (string * value) := [("conversational", VDict demo_conv)].

Definition demo_fields : list (string * value) :=
  [("eventId", VStr "e2"); ("createdAt", demo_time); ("payload", VList [VDict demo_item])].

Definition blob_item : value := VDict [("blob", VStr "AAEC")].

Definition blob_fields : list (string * value) :=
  [("eventId", VStr "e7"); ("payload", VList [blob_item])].

Definition demo_conversation : list value :=
  [ev "e1" "user" (VStr "hi"); VDict demo_fields; ev "e3" "user" (VStr "bye")].

(** The model service holding [demo_conversation] for memory "m", actor "u1"
    and session "s1". *)
Definition demo_paginate := Store.paginate "m" "u1" "s1" demo_conversation.

Definition demo_fetch_page :=
  fetch_page Store.iterator demo_paginate Store.next Store.resume_token.

Definition demo_fetch_history :=
  fetch_history Store.iterator demo_paginate Store.next Store.resume_token.

(** The scenario of two stored events, an event of a user and an answer in two
    fragments. *)
Definition scenario_conversation : list value :=
  [ev "e1" "user" (VStr "hi");
   ev "e2" "assistant" (VList [VDict [("text", VStr "hello")]; VDict [("text", VStr "there")]])].

Definition scenario_fetch_history :=
  fetch_history Store.iterator (Store.paginate "m" "u1" "s1" scenario_conversation)
    Store.next Store.resume_token.

(** A command line that gives every optional flag. *)
Definition override_flags : flags :=
  {| given_user_id := "u1";
     given_session_id := "s1";
     given_limit := Some 5%Z;
     given_next_token := None;
     given_memory_id := Some "other-memory";
     given_region := Some "us-east-1" |}.

(** ** Renderings of a page *)

(** The lines the payload loop keeps: one for each item that gave one. *)
Definition kept (lines : list (option string)) : list string :=
  flat_map (fun l => match l with Some x => [x] | None => [] end) lines.

(** The test of line 17, ["conversational" in payload_item], where it
    answers. *)
Definition is_conversational (item : value) : bool :=
  match py_contains "conversational" item with
  | Ok true => true
  | _ => false
  end.

(** What the loop of lines 88-91 prints for events rendered as [renderings]:
    each rendering and an empty line. *)
Definition event_blocks (renderings : list string) : list string :=
  flat_map (fun r => [r; ""]) renderings.

(** The sample event with its fields in another order and one more field. *)
Definition demo_fields_shuffled : list (string * value) :=
  [("payload", VList [VDict demo_item]); ("memoryId", VStr "m"); ("eventId", VStr "e2");
   ("createdAt", demo_time)].

(** ** A canned iterator *)

(** An iterator that yields the pages it was made with, one for each pull, and
    shows no resume token. *)
Module Canned.

Definition iterator : Type := list value.

Definition paginate (pages : list value) (c : client) (operation : string) (req : request)
    : iterator := pages.

Definition next (it : iterator) : step iterator :=
  match it with
  | [] => StopIteration
  | page :: rest => Yield page rest
  end.

Definition resume_token (it : iterator) : value := VNone.

End Canned.

(** The first page of the sample conversation at a page size of two, and the
    iterator after it. *)
Definition demo_first_events : list value :=
  [ev "e1" "user" (VStr "hi"); VDict demo_fields].

Definition demo_page : value :=
  VDict [("events", VList demo_first_events); ("nextToken", VStr "2")].

Definition demo_after : Store.iterator :=
  {| Store.source := Ok demo_conversation;
     Store.size := 2;
     Store.pos := 2;
     Store.exhausted := false;
     Store.resume_token := VNone |}.

Definition demo_renderings : list string :=
  ["Event e1 (2024-05-01 10:00:00+00:00):" ++ nl ++ "  [USER] hi";
   "Event e2 (2024-05-01 10:00:00+00:00):" ++ nl ++ "  [ASSISTANT] hello there"].

(** A conversation whose second event does not render. *)
Definition broken_conversation : list value :=
  [ev "e1" "user" (VStr "hi"); numeric_text_event; ev "e3" "user" (VStr "bye")].

Definition broken_paginate := Store.paginate "m" "u1" "s1" broken_conversation.

Definition broken_page : value :=
  VDict [("events", VList broken_conversation); ("nextToken", VNone)].

Definition broken_after : Store.iterator :=
  {| Store.source := Ok broken_conversation;
     Store.size := 5;
     Store.pos := 3;
     Store.exhausted := true;
     Store.resume_token := VNone |}.

(** ** The agent entrypoints

    The parts of [main.py] and [main_langgraph.py] that are the repository's
    own logic; the agent, the model and the graph engine are the SDKs'. *)

(** Line 36 of [main.py] (104-106 of [main_langgraph.py]):
    [getattr(context, 'session_id', None) or payload.get("session_id") or "default"],
    with [context_session_id] the attribute of the context when it has one.
    [or] gives its left operand when that is truthy and evaluates the right
    one only otherwise. *)
Definition invoke_session_id (context_session_id : option value) (payload : value)
    : result value :=
  let from_context := match context_session_id with Some v => v | None => VNone end in
  if truthy from_context then Ok from_context
  else
    from_payload <- py_get payload "session_id" VNone ;;
    if truthy from_payload then Ok from_payload else Ok (VStr "default").

Module LangGraph.

(** The message classes of langchain that the graph tells apart. *)
Inductive message : Type :=
| SystemMessage (content : value)
| HumanMessage (content : value)
| AIMessage (content : value) (tool_calls : list value)
| ToolMessage (content : value) (tool_call_id : string).

Definition SYSTEM_PROMPT : string :=
  "You are a helpful assistant with code execution capabilities. Use tools when appropriate.".

Definition is_system (m : message) : bool :=
  match m with
  | SystemMessage _ => true
  | _ => false
  end.

(** Lines 58-62 of [call_model]: the messages handed to the model. *)
Definition model_input (messages : list message) : list message :=
  match messages with
  | [] => SystemMessage (VStr SYSTEM_PROMPT) :: messages
  | first :: _ =>
      if negb (is_system first) then SystemMessage (VStr SYSTEM_PROMPT) :: messages
      else messages
  end.

(** [messages[-1]] *)
Definition last_message (messages : list message) : result message :=
  match rev messages with
  | [] => Raise (External "IndexError" "list index out of range")
  | m :: _ => Ok m
  end.

(** [should_continue], lines 67-75. *)
Definition should_continue (messages : list message) : result string :=
  last <- last_message messages ;;
  match last with
  | AIMessage _ (_ :: _) => Ok "tools"
  | _ => Ok "__end__"
  end.

Section Model.

(** [model_with_tools.ainvoke], the call to the hosted model. *)
Variable ainvoke : list message -> result message.

(** [call_model], lines 56-65: the update of the state's messages. *)
Definition call_model (messages : list message) : result (list message) :=
  response <- ainvoke (model_input messages) ;;
  Ok [response].

End Model.

End LangGraph.

(** * Properties *)

(** ** Strings *)

Lemma append_assoc (a b c : string) : (a ++ b) ++ c = a ++ (b ++ c).
Proof.
  induction a as [|x a IH]; simpl; [reflexivity | now rewrite IH].
Qed.

Lemma append_nil_r (a : string) : a ++ "" = a.
Proof.
  induction a as [|x a IH]; simpl; [reflexivity | now rewrite IH].
Qed.

(** A member of a joined list stands in the result as a whole line. *)
Lemma join_member (f : string -> string) (l : string) (ls : list string) :
  In l ls ->
  exists a b, join nl (map f ls) = a ++ f l ++ b
              /\ (a = "" \/ exists a', a = a' ++ nl)
              /\ (b = "" \/ exists b', b = nl ++ b').
Proof.
  induction ls as [|x ls IH]; simpl; [easy|].
  intros [-> | Hin].
  - destruct ls as [|y ls].
    + exists "", "". simpl. rewrite append_nil_r. auto.
    + exists "", (nl ++ join nl (map f (y :: ls))). simpl. split; [reflexivity|].
      split; [now left | right; eauto].
  - destruct (IH Hin) as (a & b & E & Ha & Hb).
    destruct ls as [|y ls]; [easy|].
    change (map f (y :: ls)) with (map f (y :: ls)) in E.
    exists (f x ++ nl ++ a), b.
    cbn [map] in *. rewrite E. rewrite !append_assoc. split; [reflexivity|].
    split; [right | exact Hb].
    destruct Ha as [-> | (a' & ->)].
    + exists (f x). now rewrite append_nil_r.
    + exists (f x ++ nl ++ a'). now rewrite !append_assoc.
Qed.

(** ** format_event *)

Lemma bind_ok {A B : Type} (r : result A) (k : A -> result B) (b : B) :
  bind r k = Ok b -> exists a, r = Ok a /\ k a = Ok b.
Proof.
  destruct r; simpl; intros H; try discriminate. eauto.
Qed.

(** The lines gathered so far are kept, and the rest of the payload adds to
    them. *)
Lemma payload_lines_acc (items : list value) (acc : list string) :
  payload_lines items acc = (ls <- payload_lines items [] ;; Ok (acc ++ ls)%list).
Proof.
  revert acc. induction items as [|item items IH]; intros acc; simpl.
  - now rewrite app_nil_r.
  - destruct (payload_line item) as [[l|] | e]; simpl; try reflexivity.
    + rewrite (IH (acc ++ [l])%list), (IH [l]).
      destruct (payload_lines items []); simpl; try reflexivity.
      now rewrite <- app_assoc.
    + apply IH.
Qed.

Lemma payload_lines_none (items : list value) (acc : list string) :
  Forall (fun item => py_contains "conversational" item = Ok false) items ->
  payload_lines items acc = Ok acc.
Proof.
  induction 1 as [|item items H _ IH]; simpl; [reflexivity|].
  unfold payload_line. rewrite H. simpl. exact IH.
Qed.

Lemma payload_lines_member (items : list value) (item : value) (l : string) :
  In item items -> payload_line item = Ok (Some l) ->
  forall lines, payload_lines items [] = Ok lines -> In l lines.
Proof.
  induction items as [|x items IH]; simpl; [easy|].
  intros [-> | Hin] Hl lines.
  - rewrite Hl. simpl. rewrite payload_lines_acc.
    destruct (payload_lines items []); simpl; try discriminate.
    intros [= <-]. now left.
  - destruct (payload_line x) as [[l'|] | e]; simpl; try discriminate.
    + rewrite payload_lines_acc.
      destruct (payload_lines items []) as [ls |] eqn:E; simpl; try discriminate.
      intros [= <-]. right. now apply IH.
    + now apply IH.
Qed.

(** The join of the comprehension is the join of the fragments' texts. *)
Lemma as_strings_text_parts (parts : list value) :
  Forall is_fragment parts ->
  as_strings (text_parts parts) = Ok (fragment_texts parts).
Proof.
  induction 1 as [|c parts (d & -> & Hd) _ IH]; simpl; [reflexivity|].
  unfold has_key, dict_get. unfold fragment_texts in *. simpl.
  destruct (lookup "text" d) as [[]|]; simpl in *; try discriminate.
  - now rewrite IH.
  - exact IH.
Qed.

Lemma forallb_fragment_ok (parts : list value) :
  forallb fragment_ok parts = true ->
  exists ss, as_strings (text_parts parts) = Ok ss.
Proof.
  induction parts as [|c parts IH]; simpl; [eauto|].
  intros H. apply andb_prop in H as [Hc Hp]. destruct (IH Hp) as [ss E].
  destruct c; simpl; eauto.
  unfold has_key, dict_get. simpl in Hc.
  destruct (lookup "text" d) as [[]|]; simpl in *; try discriminate; eauto.
  rewrite E. simpl. eauto.
Qed.

Lemma item_ok_line (item : value) :
  item_ok item = true -> exists l, payload_line item = Ok l.
Proof.
  destruct item; simpl; try discriminate.
  unfold payload_line. simpl. unfold has_key.
  destruct (lookup "conversational" d) as [conv|]; simpl; [|eauto].
  destruct conv; simpl; try discriminate.
  intros H. apply andb_prop in H as [Hr Hc].
  unfold dict_get.
  destruct (lookup "role" d0) as [[]|]; simpl in *; try discriminate;
    (destruct (lookup "content" d0) as [[]|]; simpl in *; eauto;
     destruct (forallb_fragment_ok _ Hc) as [ss E];
     unfold py_join; rewrite E; simpl; eauto).
Qed.

Lemma payload_ok_lines (items : list value) (acc : list string) :
  forallb item_ok items = true -> exists ls, payload_lines items acc = Ok ls.
Proof.
  revert acc. induction items as [|item items IH]; intros acc; simpl; [eauto|].
  intros H. apply andb_prop in H as [Hi Hr].
  destruct (item_ok_line _ Hi) as [l ->]. simpl. now apply IH.
Qed.

(** What a returned rendering is made of. *)
Lemma format_event_ok (d : list (string * value)) (s : string) :
  format_event (VDict d) = Ok s ->
  exists items lines,
    py_iter (dict_get d "payload" (VList [])) = Ok items
    /\ payload_lines items [] = Ok lines
    /\ s = event_head (dict_get d "eventId" (VStr "unknown"))
                      (dict_get d "createdAt" (VStr ""))
           ++ match lines with
              | _ :: _ => ":" ++ nl ++ join nl (map (fun line => "  " ++ line) lines)
              | [] => ": " ++ placeholder
              end.
Proof.
  unfold format_event. cbn [py_get bind]. intros H.
  apply bind_ok in H as (items & Hi & H).
  apply bind_ok in H as (lines & Hl & H).
  exists items, lines. repeat split; try assumption.
  destruct lines; now injection H as <-.
Qed.

Lemma event_head_eq (d : list (string * value)) :
  event_head (dict_get d "eventId" (VStr "unknown")) (dict_get d "createdAt" (VStr ""))
  = "Event " ++ match lookup "eventId" d with Some v => py_str v | None => "unknown" end
    ++ " (" ++ match lookup "createdAt" d with Some v => py_str v | None => "" end ++ ")".
Proof.
  unfold event_head, dict_get.
  destruct (lookup "eventId" d), (lookup "createdAt" d); reflexivity.
Qed.

(** The loop body on a conversational item whose content is a list of
    fragments. *)
Lemma payload_line_fragments (it conv : list (string * value)) (parts : list value)
    (role : string) :
  lookup "conversational" it = Some (VDict conv) ->
  py_upper (dict_get conv "role" (VStr "UNKNOWN")) = Ok role ->
  lookup "content" conv = Some (VList parts) ->
  Forall is_fragment parts ->
  payload_line (VDict it)
  = Ok (Some ("[" ++ role ++ "] " ++ join " " (fragment_texts parts))).
Proof.
  intros Hc Hr Hp Hf. unfold payload_line. simpl. unfold has_key. rewrite Hc. simpl.
  rewrite Hr. simpl. unfold dict_get at 1. rewrite Hp.
  unfold py_join. rewrite (as_strings_text_parts _ Hf). reflexivity.
Qed.

(** A fragment without a [text] leaves no trace in the texts. *)
Lemma fragment_texts_skip (before after : list value) (d : list (string * value)) :
  lookup "text" d = None ->
  fragment_texts (before ++ VDict d :: after) = fragment_texts (before ++ after).
Proof.
  intros H. unfold fragment_texts. rewrite !flat_map_app. simpl. now rewrite H.
Qed.

(** C3: for a conversational payload item whose content is a sequence of
    fragment mappings, the line [format_event] renders for it is the
    upper-cased role in brackets followed by the fragments' [text] values, in
    their order, joined by one space; a fragment without a [text] is left out
    of the joined list altogether ([fragment_texts]).  The line stands as a
    whole line of the rendering of the event. *)
Theorem format_event_joins_fragment_texts
    (d it conv : list (string * value)) (items parts : list value) (role s : string) :
  lookup "payload" d = Some (VList items) ->
  In (VDict it) items ->
  lookup "conversational" it = Some (VDict conv) ->
  py_upper (dict_get conv "role" (VStr "UNKNOWN")) = Ok role ->
  lookup "content" conv = Some (VList parts) ->
  Forall is_fragment parts ->
  format_event (VDict d) = Ok s ->
  exists before after,
    s = before ++ nl ++ "  " ++ ("[" ++ role ++ "] " ++ join " " (fragment_texts parts)) ++ after
    /\ (after = "" \/ exists rest, after = nl ++ rest).
Proof.
  intros Hp Hin Hc Hr Hcont Hf Hs.
  pose proof (payload_line_fragments it conv parts role Hc Hr Hcont Hf) as Hline.
  apply format_event_ok in Hs as (items' & lines & Hi & Hl & ->).
  replace (dict_get d "payload" (VList [])) with (VList items) in Hi
    by (unfold dict_get; now rewrite Hp).
  injection Hi as <-.
  pose proof (payload_lines_member items _ _ Hin Hline lines Hl) as Hmem.
  destruct lines as [|l0 lines]; [easy|].
  destruct (join_member (fun line => "  " ++ line) _ _ Hmem) as (a & b & Ej & Ha & Hb).
  rewrite Ej.
  destruct Ha as [-> | (a' & ->)].
  - exists (event_head (dict_get d "eventId" (VStr "unknown"))
                      (dict_get d "createdAt" (VStr "")) ++ ":"), b.
    split; [|exact Hb]. rewrite !append_assoc. reflexivity.
  - exists (event_head (dict_get d "eventId" (VStr "unknown"))
                      (dict_get d "createdAt" (VStr "")) ++ ":" ++ nl ++ a'), b.
    split; [|exact Hb]. rewrite !append_assoc. reflexivity.
Qed.

(** C4: an event none of whose payload items is a [conversational] one is
    rendered as the placeholder text after the prefix of identifier and
    timestamp, and not as the empty string. *)
Theorem format_event_placeholder (d : list (string * value)) (items : list value) :
  py_iter (dict_get d "payload" (VList [])) = Ok items ->
  Forall (fun item => py_contains "conversational" item = Ok false) items ->
  format_event (VDict d)
  = Ok ("Event " ++ match lookup "eventId" d with Some v => py_str v | None => "unknown" end
        ++ " (" ++ match lookup "createdAt" d with Some v => py_str v | None => "" end
        ++ "): (no conversational content)")
  /\ format_event (VDict d) <> Ok "".
Proof.
  intros Hit Hnone.
  assert (E : format_event (VDict d)
              = Ok (event_head (dict_get d "eventId" (VStr "unknown"))
                               (dict_get d "createdAt" (VStr "")) ++ ": " ++ placeholder)).
  { unfold format_event. simpl. rewrite Hit. simpl.
    now rewrite (payload_lines_none _ [] Hnone). }
  rewrite E, event_head_eq. split.
  - now rewrite !append_assoc.
  - discriminate.
Qed.

(** C7, as the code has it: [format_event] returns a string, raising nothing,
    for every event of the data model's shape ([well_formed]), in which
    identifier, timestamp, payload, role, content and text may each be
    missing. *)
Theorem format_event_total_on_well_formed (event : value) :
  well_formed event = true -> exists s, format_event event = Ok s.
Proof.
  destruct event; try discriminate. cbn [well_formed]. intros H.
  assert (exists items, py_iter (dict_get d "payload" (VList [])) = Ok items
                        /\ forallb item_ok items = true) as (items & Hi & Hok).
  { unfold dict_get. destruct (lookup "payload" d) as [[]|]; try discriminate.
    - exists l. now split.
    - exists []. now split. }
  unfold format_event. cbn [py_get bind]. rewrite Hi. cbn [bind].
  destruct (payload_ok_lines _ [] Hok) as [ls ->]. cbn [bind].
  destruct ls; eauto.
Qed.

(** C7, as the claim has it, fails: a fragment whose [text] is a number makes
    [" ".join] raise. *)
Lemma format_event_raises_on_numeric_text :
  format_event numeric_text_event = Raise TypeError.
Proof. reflexivity. Qed.

(** C10: whatever [format_event] returns for an event mapping begins with
    "Event ", the identifier (or "unknown"), and the timestamp (or nothing) in
    parentheses, and so is not empty. *)
Theorem format_event_prefix (d : list (string * value)) (s : string) :
  format_event (VDict d) = Ok s ->
  (exists rest,
     s = "Event " ++ match lookup "eventId" d with Some v => py_str v | None => "unknown" end
         ++ " (" ++ match lookup "createdAt" d with Some v => py_str v | None => "" end
         ++ ")" ++ rest)
  /\ s <> "".
Proof.
  intros Hs. apply format_event_ok in Hs as (items & lines & _ & _ & ->).
  rewrite event_head_eq. split.
  - rewrite !append_assoc. eexists. reflexivity.
  - discriminate.
Qed.

(** The prefix on an event that has no timestamp. *)
Lemma format_event_prefix_witness :
  (exists rest,
     "Event e7 (): (no conversational content)"
     = "Event " ++ "e7" ++ " (" ++ "" ++ ")" ++ rest)
  /\ "Event e7 (): (no conversational content)" <> "".
Proof.
  exact (format_event_prefix blob_fields "Event e7 (): (no conversational content)" eq_refl).
Defined.

(** The placeholder on an event whose only payload item is a blob. *)
Lemma format_event_placeholder_witness :
  format_event (VDict blob_fields) = Ok "Event e7 (): (no conversational content)"
  /\ format_event (VDict blob_fields) <> Ok "".
Proof.
  apply (format_event_placeholder blob_fields [blob_item]).
  - reflexivity.
  - repeat constructor.
Defined.

(** The sample event of an assistant renders. *)
Lemma format_event_total_witness : exists s, format_event (VDict demo_fields) = Ok s.
Proof.
  apply format_event_total_on_well_formed. reflexivity.
Defined.

(** The sample event: three fragments, the middle one without a [text]. *)
Lemma format_event_joins_fragment_texts_witness :
  exists before after,
    "Event e2 (2024-05-01 10:00:00+00:00):" ++ nl ++ "  [ASSISTANT] hello there"
    = before ++ nl ++ "  " ++ ("[" ++ "ASSISTANT" ++ "] " ++ join " " (fragment_texts demo_parts))
      ++ after
    /\ (after = "" \/ exists rest, after = nl ++ rest).
Proof.
  apply (format_event_joins_fragment_texts demo_fields demo_item demo_conv
           [VDict demo_item] demo_parts "ASSISTANT").
  - reflexivity.
  - simpl. now left.
  - reflexivity.
  - reflexivity.
  - reflexivity.
  - repeat constructor; eexists; split; reflexivity.
  - reflexivity.
Defined.

(** ** fetch_history *)

Lemma logged_logged (w : world) (es es' : list api_event) :
  logged (logged w es) es' = logged w (es ++ es').
Proof.
  unfold logged. simpl. now rewrite app_assoc.
Qed.

Lemma printed_printed (w : world) (out out' : list string) :
  printed (printed w out) out' = printed w (out ++ out').
Proof.
  unfold printed. simpl. now rewrite app_assoc.
Qed.

Lemma quiet_ret {A : Type} (a : A) : quiet (ret a).
Proof. intros w. now exists w, (Ok a). Qed.

Lemma quiet_lift {A : Type} (r : result A) : quiet (lift r).
Proof. intros w. now exists w, r. Qed.

Lemma quiet_print (s : string) : quiet (print s).
Proof. intros w. now exists (printed w [s]), (Ok tt). Qed.

Lemma quiet_bind {A B : Type} (m : io A) (k : A -> io B) :
  quiet m -> (forall a, quiet (k a)) -> quiet (io_bind m k).
Proof.
  intros Hm Hk w. unfold io_bind.
  destruct (Hm w) as (w1 & [a|e] & -> & E1).
  - destruct (Hk a w1) as (w2 & r & -> & E2). exists w2, r. split; congruence.
  - now exists w1, (Raise e).
Qed.

Create HintDb quiet.
#[local] Hint Resolve quiet_ret quiet_lift quiet_print : quiet.

(** When a token of type [str | None] counts as there: it is a string and it
    is not empty. *)
Lemma truthy_token (cur : value) :
  (cur = VNone -> truthy cur = false)
  /\ (forall t, cur = VStr t -> (truthy cur = true <-> t <> "")).
Proof.
  split; [now intros ->|]. intros t ->. cbn.
  destruct (String.eqb_spec t ""); cbn; split; congruence.
Qed.

(** What a returned rendering starts with. *)
Lemma format_event_starts (event : value) (s : string) :
  format_event event = Ok s -> exists rest, s = "Event " ++ rest.
Proof.
  destruct event; try discriminate. intros H.
  apply format_event_ok in H as (items & lines & _ & _ & ->).
  unfold event_head. rewrite !append_assoc. eexists. reflexivity.
Qed.

Section FetchHistoryProperties.

Variable iterator : Type.
Variable paginate : client -> string -> request -> iterator.
Variable next : iterator -> step iterator.
Variable resume_token_of : iterator -> value.

Local Abbreviation fetch_page := (fetch_page iterator paginate next resume_token_of).
Local Abbreviation fetch_history := (fetch_history iterator paginate next resume_token_of).
Local Abbreviation main := (main iterator paginate next resume_token_of).

(** The fetch in closed form: whatever the iterator holds, one client, one
    iterator and one pull. *)
Lemma fetch_page_run (fuel : nat) (m r u s : string) (lim : Z) (tok : option string)
    (w : world) :
  fetch_page (S fuel) m r u s lim tok w
  = let c := agentcore_client r in
    let req := list_events_request m u s lim tok in
    Some (logged w [CreateClient c; Paginate "list_events" req; NextPage],
          match next (paginate c "list_events" req) with
          | Yield page it =>
              events <- py_get page "events" (VList []) ;;
              items <- py_iter events ;;
              Ok (items, resume_token_of it)
          | StopIteration => Ok ([], VNone)
          | Fails e => Raise e
          end).
Proof.
  unfold fetch_page, create_agentcore_client, io_bind, log_api, ret.
  cbn [for_each]. unfold io_bind, pull, io_bind, log_api.
  rewrite !logged_logged. cbn [app].
  destruct (next _) as [page it | | e]; try reflexivity.
  unfold ret, collect, io_bind, lift, ret.
  destruct (py_get page "events" (VList [])) as [events|e]; cbn [bind]; [|reflexivity].
  destruct (py_iter events) as [items|e]; reflexivity.
Qed.

Lemma print_events_quiet (evs : list value) : quiet (print_events evs).
Proof.
  induction evs as [|e evs IH]; cbn [print_events]; auto with quiet.
  repeat (apply quiet_bind; [auto with quiet | intros ?]). exact IH.
Qed.

Lemma show_page_quiet (u s : string) (evs : list value) (tok : value) :
  quiet (show_page u s evs tok).
Proof.
  unfold show_page. destruct evs as [|e evs]; auto with quiet.
  apply quiet_bind; [auto with quiet | intros _].
  apply quiet_bind; [apply print_events_quiet | intros _].
  apply quiet_bind; [auto with quiet | intros _].
  destruct (truthy tok); auto with quiet.
  apply quiet_bind; auto with quiet.
Qed.

(** When every event renders, the loop prints a block and an empty line for
    each. *)
Lemma print_events_ok (evs : list value) (w : world) :
  Forall (fun e => exists s, format_event e = Ok s) evs ->
  exists blocks,
    print_events evs w = Some (printed w blocks, Ok tt)
    /\ Forall (fun b => b = "" \/ exists rest, b = "Event " ++ rest) blocks.
Proof.
  intros H. revert w. induction H as [|e evs (s & Hs) _ IH]; intros w.
  - exists []. split; [|constructor]. unfold printed. rewrite app_nil_r. now destruct w.
  - cbn [print_events]. unfold io_bind, lift. rewrite Hs. unfold print.
    rewrite printed_printed.
    destruct (IH (printed w ([s] ++ [""]))) as (blocks & -> & Hb).
    exists (s :: "" :: blocks). rewrite printed_printed. split; [reflexivity|].
    constructor; [right; now apply format_event_starts with e|].
    constructor; [now left | exact Hb].
Qed.

(** The whole of what is printed for a page that has events, all of which
    render. *)
Lemma show_page_ok (u s : string) (evs : list value) (cur : value) (w : world) :
  evs <> [] ->
  Forall (fun e => exists line, format_event e = Ok line) evs ->
  exists blocks,
    show_page u s evs cur w
    = Some (printed w (header u s :: blocks ++ summary (List.length evs)
                         :: (if truthy cur then [more_notice; cursor_line cur]
                             else [no_more_notice]))%list,
            Ok tt)
    /\ Forall (fun b => b = "" \/ exists rest, b = "Event " ++ rest) blocks.
Proof.
  intros Hne Hall. unfold show_page.
  destruct evs as [|e0 evs0] eqn:E; [easy|]. rewrite <- E in *. clear E Hne.
  unfold io_bind, print at 1.
  destruct (print_events_ok evs (printed w [header u s]) Hall) as (blocks & -> & Hb).
  exists blocks. split; [|exact Hb].
  unfold print. destruct (truthy cur); rewrite !printed_printed;
    cbn [app]; rewrite <- ?app_assoc; reflexivity.
Qed.

(** The SDK calls of a run. *)
Lemma fetch_history_api_log (fuel : nat) (m r u s : string) (lim : Z)
    (tok : option string) :
  exists w res,
    fetch_history (S fuel) m r u s lim tok start = Some (w, res)
    /\ api_log w = [CreateClient (agentcore_client r);
                    Paginate "list_events" (list_events_request m u s lim tok);
                    NextPage].
Proof.
  unfold fetch_history, io_bind. rewrite fetch_page_run. cbv zeta.
  set (w1 := logged start _).
  destruct (match next _ with Yield _ _ => _ | StopIteration => _ | Fails e => _ end)
    as [[evs cur] | e].
  - destruct (show_page_quiet u s evs cur w1) as (w2 & res & E & Hlog).
    exists w2, res. cbn [fst snd]. rewrite E. split; [reflexivity|].
    rewrite Hlog. reflexivity.
  - exists w1, (Raise e). repeat split.
Qed.

(** C1: whatever the page iterator holds and however many pages it could
    yield, a run of [fetch_history] makes one client and one page iterator and
    pulls that iterator once: one page request, and the run ends (any fuel
    beyond the first turn of the loop is left unused). *)
Theorem fetch_history_one_page_request (fuel : nat) (m r u s : string) (lim : Z)
    (tok : option string) :
  exists w res,
    fetch_history (S fuel) m r u s lim tok start = Some (w, res)
    /\ api_log w = [CreateClient (agentcore_client r);
                    Paginate "list_events" (list_events_request m u s lim tok);
                    NextPage]
    /\ page_requests w = 1.
Proof.
  destruct (fetch_history_api_log fuel m r u s lim tok) as (w & res & E & Hlog).
  exists w, res. repeat split; try assumption.
  unfold page_requests. now rewrite Hlog.
Qed.

(** C8: an exception the service raises when the page is pulled comes out of
    [fetch_history] as it is; by then one request has been issued, none
    follows, and nothing has been printed. *)
Theorem api_error_propagates (fuel : nat) (m r u s : string) (lim : Z)
    (tok : option string) (e : exn) :
  next (paginate (agentcore_client r) "list_events" (list_events_request m u s lim tok))
  = Fails e ->
  exists w,
    fetch_history (S fuel) m r u s lim tok start = Some (w, Raise e)
    /\ stdout w = []
    /\ api_log w = [CreateClient (agentcore_client r);
                    Paginate "list_events" (list_events_request m u s lim tok);
                    NextPage]
    /\ page_requests w = 1.
Proof.
  intros H. unfold fetch_history, io_bind. rewrite fetch_page_run. cbv zeta.
  rewrite H. eexists. repeat split.
Qed.

(** C5: when the fetch ends with no events, [fetch_history] prints the one
    line "No events found." and returns; standard output holds that line and
    its newline. *)
Theorem no_events_found (fuel : nat) (m r u s : string) (lim : Z) (tok : option string)
    (w1 : world) (cur : value) :
  fetch_page (S fuel) m r u s lim tok start = Some (w1, Ok ([], cur)) ->
  exists w,
    fetch_history (S fuel) m r u s lim tok start = Some (w, Ok tt)
    /\ stdout w = ["No events found."]
    /\ stdout_text w = "No events found." ++ nl.
Proof.
  intros H. unfold fetch_history, io_bind. rewrite H. cbn [fst snd show_page].
  rewrite fetch_page_run in H. cbv zeta in H. injection H as <- _.
  eexists. repeat split.
Qed.

(** C2, as the code has it: for a page that has events, all of which render,
    the run ends well and its last print calls are the notices.  The line
    "More events available. Use --next-token to fetch next page:" (after an
    empty line) is printed exactly when the resume token read after the fetch
    is truthy, and so is the line [--next-token "..."] that holds the token as
    [str()] gives it, for a string token that string itself between the
    quotes; the line "No more events." (after an empty line) is printed
    exactly when the token is not truthy.  A token of type [str | None] is
    truthy when it is a string and not the empty one. *)
Theorem cursor_notice_iff_resume_token (fuel : nat) (m r u s : string) (lim : Z)
    (tok : option string) (w1 : world) (evs : list value) (cur : value) :
  fetch_page (S fuel) m r u s lim tok start = Some (w1, Ok (evs, cur)) ->
  evs <> [] ->
  Forall (fun e => exists line, format_event e = Ok line) evs ->
  exists w,
    fetch_history (S fuel) m r u s lim tok start = Some (w, Ok tt)
    /\ (In (String "010"%char "More events available. Use --next-token to fetch next page:")
           (stdout w)
        <-> truthy cur = true)
    /\ (In ("--next-token " ++ String "034"%char (py_str cur ++ String "034"%char ""))
           (stdout w)
        <-> truthy cur = true)
    /\ (forall t, cur = VStr t ->
          (In ("--next-token " ++ String "034"%char (t ++ String "034"%char "")) (stdout w)
           <-> t <> ""))
    /\ (In (String "010"%char "No more events.") (stdout w) <-> truthy cur = false)
    /\ (truthy cur = true ->
        exists body,
          stdout w
          = (body
             ++ [String "010"%char
                   "More events available. Use --next-token to fetch next page:";
                 ("--next-token "
                  ++ String "034"%char (py_str cur ++ String "034"%char ""))%string])%list)
    /\ (truthy cur = false ->
        exists body, stdout w = (body ++ [String "010"%char "No more events."])%list).
Proof.
  intros H Hne Hall. unfold fetch_history, io_bind. rewrite H. cbn [fst snd].
  rewrite fetch_page_run in H. cbv zeta in H. injection H as <- _.
  destruct (show_page_ok u s evs cur
              (logged start [CreateClient (agentcore_client r);
                 Paginate "list_events" (list_events_request m u s lim tok); NextPage])
              Hne Hall) as (blocks & -> & Hb).
  assert (Hblocks : forall x, In x blocks -> x = "" \/ exists rest, x = "Event " ++ rest)
    by (now apply Forall_forall).
  eexists. split; [reflexivity|]. cbn [stdout printed logged start app].
  change (String "010"%char "More events available. Use --next-token to fetch next page:")
    with more_notice.
  change (String "010"%char "No more events.") with no_more_notice.
  change ("--next-token " ++ String "034"%char (py_str cur ++ String "034"%char ""))
    with (cursor_line cur).
  assert (Hstr : forall t, cur = VStr t ->
            "--next-token " ++ String "034"%char (t ++ String "034"%char "") = cursor_line cur)
    by (now intros t ->).
  assert (Hbody : forall x tail,
            In x (header u s :: blocks ++ summary (List.length evs) :: tail)%list ->
            x = header u s \/ x = "" \/ (exists rest, x = "Event " ++ rest)
            \/ x = summary (List.length evs) \/ In x tail).
  { intros x tail [<- | Hin]; [now left|]. right.
    apply in_app_or in Hin as [Hin | [<- | Hin]]; [|now auto|now auto].
    destruct (Hblocks _ Hin) as [-> | E]; auto. }
  destruct (truthy cur) eqn:Ht.
  - assert (Hmore : In more_notice
                      (header u s :: blocks
                       ++ summary (List.length evs) :: [more_notice; cursor_line cur])%list)
      by (right; apply in_or_app; right; simpl; auto).
    assert (Hcur : In (cursor_line cur)
                     (header u s :: blocks
                      ++ summary (List.length evs) :: [more_notice; cursor_line cur])%list)
      by (right; apply in_or_app; right; simpl; auto).
    repeat split; auto; try discriminate.
    + intros _. destruct cur; try discriminate. injection H as <-.
      cbn in Ht. intros ->. discriminate Ht.
    + now rewrite (Hstr t H).
    + intros Hin. exfalso.
      apply Hbody in Hin as [E | [E | [(rest & E) | [E | Hin]]]]; try discriminate E.
      simpl in Hin. destruct Hin as [E | [E | []]]; discriminate E.
    + intros _. exists (header u s :: blocks ++ [summary (List.length evs)])%list.
      cbn [app]. now rewrite <- app_assoc.
  - assert (Hno : forall x, x = more_notice \/ x = cursor_line cur ->
                    ~ In x (header u s :: blocks
                            ++ summary (List.length evs) :: [no_more_notice])%list).
    { intros x Hx Hin.
      apply Hbody in Hin as [E | [E | [(rest & E) | [E | Hin]]]];
        destruct Hx as [-> | ->]; try discriminate E;
        simpl in Hin; destruct Hin as [E | []]; discriminate E. }
    repeat split; auto; try discriminate.
    + intros Hin. exfalso. eapply Hno; [|exact Hin]. now left.
    + intros Hin. exfalso. eapply Hno; [|exact Hin]. now right.
    + intros Hin. exfalso. eapply Hno; [|exact Hin]. right. now apply Hstr.
    + intros Hn. exfalso. subst cur. cbn in Ht.
      destruct (String.eqb_spec t ""); [now apply Hn | discriminate Ht].
    + intros _. right. apply in_or_app. right. simpl. auto.
    + intros _. exists (header u s :: blocks ++ [summary (List.length evs)])%list.
      cbn [app]. now rewrite <- app_assoc.
Qed.

(** What [main] asks of the SDK, whatever the flags. *)
Lemma main_api_log (fuel : nat) (f : flags) :
  exists w res,
    main (S fuel) f start = Some (w, res)
    /\ api_log w
       = [CreateClient (agentcore_client "eu-central-1");
          Paginate "list_events"
            (list_events_request "aqua_memory_v1-ou5CPqEFsu" (given_user_id f)
               (given_session_id f)
               (match given_limit f with Some n => n | None => 20%Z end)
               (given_next_token f));
          NextPage].
Proof.
  unfold main. apply fetch_history_api_log.
Qed.

(** C6, on a command line that gives [--memory-id other-memory] and
    [--region us-east-1]: the client is made for eu-central-1 and the request
    names the memory aqua_memory_v1-ou5CPqEFsu; the two flags are parsed and
    then left unread. *)
Theorem main_ignores_memory_id_and_region (fuel : nat) :
  exists w res,
    main (S fuel) override_flags start = Some (w, res)
    /\ api_log w
       = [CreateClient {| service_name := "bedrock-agentcore";
                          region_name := "eu-central-1" |};
          Paginate "list_events"
            {| memoryId := "aqua_memory_v1-ou5CPqEFsu"; actorId := "u1";
               sessionId := "s1"; includePayloads := true; PageSize := 5;
               StartingToken := None |};
          NextPage]
    /\ memory_id (parse_args override_flags) = Some "other-memory"
    /\ region (parse_args override_flags) = Some "us-east-1".
Proof.
  destruct (main_api_log fuel override_flags) as (w & res & E & Hlog).
  exists w, res. repeat split; assumption.
Qed.

(** The defaults of [--limit] and [--next-token]. *)
Lemma parse_args_defaults (f : flags) :
  (given_limit f = None -> limit (parse_args f) = 20%Z)
  /\ (given_next_token f = None -> next_token (parse_args f) = None)
  /\ (forall n, given_limit f = Some n -> limit (parse_args f) = n)
  /\ (forall t, given_next_token f = Some t -> next_token (parse_args f) = Some t).
Proof.
  unfold parse_args. cbn. repeat split; intros; subst; try rewrite H; reflexivity.
Qed.

End FetchHistoryProperties.

(** ** The theorems on the sample data *)

(** A cursor the service rejects. *)
Lemma api_error_propagates_witness :
  exists w,
    demo_fetch_history 1 "m" "eu-central-1" "u1" "s1" 2%Z (Some "xx") start
    = Some (w, Raise (External "ValidationException" "Invalid token"))
    /\ stdout w = []
    /\ api_log w = [CreateClient (agentcore_client "eu-central-1");
                    Paginate "list_events"
                      (list_events_request "m" "u1" "s1" 2%Z (Some "xx"));
                    NextPage]
    /\ page_requests w = 1.
Proof.
  apply (api_error_propagates Store.iterator demo_paginate Store.next Store.resume_token
           0 "m" "eu-central-1" "u1" "s1" 2%Z (Some "xx")).
  reflexivity.
Defined.

(** A cursor past the end of the conversation. *)
Lemma no_events_found_witness :
  exists w,
    demo_fetch_history 1 "m" "eu-central-1" "u1" "s1" 2%Z (Some "7") start = Some (w, Ok tt)
    /\ stdout w = ["No events found."]
    /\ stdout_text w = "No events found." ++ nl.
Proof.
  eapply (no_events_found Store.iterator demo_paginate Store.next Store.resume_token
            0 "m" "eu-central-1" "u1" "s1" 2%Z (Some "7")).
  lazy. reflexivity.
Defined.

(** The first page of two events out of three: the iterator shows no resume
    token, and the last line printed is "No more events.". *)
Lemma cursor_notice_iff_resume_token_witness :
  exists w,
    demo_fetch_history 1 "m" "eu-central-1" "u1" "s1" 2%Z None start = Some (w, Ok tt)
    /\ (In (String "010"%char "More events available. Use --next-token to fetch next page:")
           (stdout w)
        <-> truthy VNone = true)
    /\ (In ("--next-token " ++ String "034"%char (py_str VNone ++ String "034"%char ""))
           (stdout w)
        <-> truthy VNone = true)
    /\ (forall t, VNone = VStr t ->
          (In ("--next-token " ++ String "034"%char (t ++ String "034"%char "")) (stdout w)
           <-> t <> ""))
    /\ (In (String "010"%char "No more events.") (stdout w) <-> truthy VNone = false)
    /\ (truthy VNone = true ->
        exists body,
          stdout w
          = (body
             ++ [String "010"%char
                   "More events available. Use --next-token to fetch next page:";
                 ("--next-token "
                  ++ String "034"%char (py_str VNone ++ String "034"%char ""))%string])%list)
    /\ (truthy VNone = false ->
        exists body, stdout w = (body ++ [String "010"%char "No more events."])%list).
Proof.
  eapply (cursor_notice_iff_resume_token Store.iterator demo_paginate Store.next
            Store.resume_token 0 "m" "eu-central-1" "u1" "s1" 2%Z None).
  - lazy. reflexivity.
  - discriminate.
  - repeat constructor; eexists; reflexivity.
Defined.

(** C2, as the claim has it, fails: a page of three events whose second does
    not render, and no resume token.  The page result is there and is not
    empty, no cursor is shown, and the run ends with the exception after the
    header and the first event: "No more events." is not printed. *)
Lemma no_notice_when_event_unrendered :
  fetch_page Store.iterator broken_paginate Store.next Store.resume_token
    1 "m" "eu-central-1" "u1" "s1" 5%Z None start
  = Some (logged start [CreateClient (agentcore_client "eu-central-1");
                        Paginate "list_events"
                          (list_events_request "m" "u1" "s1" 5%Z None);
                        NextPage],
          Ok (broken_conversation, VNone))
  /\ exists w,
       fetch_history Store.iterator broken_paginate Store.next Store.resume_token
         1 "m" "eu-central-1" "u1" "s1" 5%Z None start
       = Some (w, Raise TypeError)
       /\ stdout w
          = ["=== Conversation History (user: u1, session: s1) ===" ++ String "010"%char "";
             "Event e1 (2024-05-01 10:00:00+00:00):" ++ String "010"%char "  [USER] hi";
             ""]
       /\ ~ In (String "010"%char "No more events.") (stdout w).
Proof.
  split; [reflexivity|]. eexists. split; [reflexivity|]. split; [reflexivity|].
  cbn. intros [E | [E | [E | []]]]; discriminate E.
Qed.

(** ** Examples *)

(** Missing fields take their defaults. *)
Example format_event_defaults :
  format_event (VDict []) = Ok "Event unknown (): (no conversational content)"
  /\ format_event (VDict [("payload", VList [VDict [("conversational", VDict [])]])])
     = Ok ("Event unknown ():" ++ nl ++ "  [UNKNOWN] ").
Proof. split; reflexivity. Qed.

(** A fragment that is not a mapping is passed over, and a content that is
    not a list is put as [str()] gives it. *)
Example format_event_odd_content :
  format_event (ev "e4" "tool" (VList [VStr "raw"; VDict [("text", VStr "ok")]]))
  = Ok ("Event e4 (2024-05-01 10:00:00+00:00):" ++ nl ++ "  [TOOL] ok")
  /\ format_event (ev "e5" "tool" (VDict [("code", VInt 7)]))
     = Ok ("Event e5 (2024-05-01 10:00:00+00:00):" ++ nl ++ "  [TOOL] {'code': 7}").
Proof. split; reflexivity. Qed.

(** Payload items of other shapes: a number is no container, and a list that
    holds the string "conversational" takes no string index. *)
Example format_event_odd_items :
  format_event (VDict [("payload", VList [VInt 3])]) = Raise TypeError
  /\ format_event (VDict [("payload", VList [VList [VStr "conversational"]])])
     = Raise TypeError
  /\ format_event (VDict [("payload", VList [VDict [("conversational", VStr "hi")]])])
     = Raise AttributeError
  /\ format_event (VDict [("payload", VNone)]) = Raise TypeError.
Proof. repeat split; reflexivity. Qed.

(** The scenario: two stored events and a page size of two. *)
Example scenario_output :
  exists w,
    scenario_fetch_history 1 "m" "eu-central-1" "u1" "s1" 2%Z None start = Some (w, Ok tt)
    /\ stdout w
       = ["=== Conversation History (user: u1, session: s1) ===" ++ nl;
          "Event e1 (2024-05-01 10:00:00+00:00):" ++ nl ++ "  [USER] hi";
          "";
          "Event e2 (2024-05-01 10:00:00+00:00):" ++ nl ++ "  [ASSISTANT] hello there";
          "";
          "--- Showing 2 event(s) ---";
          nl ++ "No more events."].
Proof. eexists. split; reflexivity. Qed.

(** * Further properties *)

(** ** format_event: the payload loop *)

Lemma payload_lines_kept (items : list value) (ols : list (option string)) :
  Forall2 (fun item line => payload_line item = Ok line) items ols ->
  forall acc, payload_lines items acc = Ok (acc ++ kept ols)%list.
Proof.
  induction 1 as [|item ol items ols H _ IH]; intros acc; cbn [payload_lines].
  - unfold kept. cbn. now rewrite app_nil_r.
  - rewrite H. cbn [bind]. rewrite IH. unfold kept. cbn [flat_map].
    destruct ol; cbn [app]; [now rewrite <- app_assoc | reflexivity].
Qed.

(** The loop body gives a line exactly for the items that answer True to
    ["conversational" in payload_item]. *)
Lemma payload_line_some (item : value) (ol : option string) :
  payload_line item = Ok ol ->
  ol <> None <-> py_contains "conversational" item = Ok true.
Proof.
  unfold payload_line. destruct (py_contains "conversational" item) as [[]|e]; cbn [bind].
  - intros H. repeat (apply bind_ok in H as (? & _ & H)). injection H as <-. easy.
  - intros [= <-]. easy.
  - discriminate.
Qed.

Lemma kept_length (items : list value) (ols : list (option string)) :
  Forall2 (fun item line => payload_line item = Ok line) items ols ->
  List.length (kept ols) = List.length (filter is_conversational items).
Proof.
  induction 1 as [|item ol items ols H _ IH]; [reflexivity|].
  apply payload_line_some in H. unfold kept in *. cbn [flat_map filter].
  rewrite length_app, IH. unfold is_conversational.
  destruct ol; destruct H as [H1 H2].
  - rewrite H1 by discriminate. reflexivity.
  - destruct (py_contains "conversational" item) as [[]|]; try reflexivity.
    now destruct H2.
Qed.

(** A line the loop body gives for an item of the payload stands in the
    rendering as a whole line. *)
Lemma format_event_line_member (d : list (string * value)) (items : list value)
    (item : value) (l s : string) :
  lookup "payload" d = Some (VList items) ->
  In item items ->
  payload_line item = Ok (Some l) ->
  format_event (VDict d) = Ok s ->
  exists before after,
    s = before ++ nl ++ "  " ++ l ++ after
    /\ (after = "" \/ exists rest, after = nl ++ rest).
Proof.
  intros Hp Hin Hline Hs.
  apply format_event_ok in Hs as (items' & lines & Hi & Hl & ->).
  replace (dict_get d "payload" (VList [])) with (VList items) in Hi
    by (unfold dict_get; now rewrite Hp).
  injection Hi as <-.
  pose proof (payload_lines_member items _ _ Hin Hline lines Hl) as Hmem.
  destruct lines as [|l0 lines]; [easy|].
  destruct (join_member (fun line => "  " ++ line) _ _ Hmem) as (a & b & Ej & Ha & Hb).
  rewrite Ej.
  destruct Ha as [-> | (a' & ->)].
  - exists (event_head (dict_get d "eventId" (VStr "unknown"))
                      (dict_get d "createdAt" (VStr "")) ++ ":"), b.
    split; [|exact Hb]. rewrite !append_assoc. reflexivity.
  - exists (event_head (dict_get d "eventId" (VStr "unknown"))
                      (dict_get d "createdAt" (VStr "")) ++ ":" ++ nl ++ a'), b.
    split; [|exact Hb]. rewrite !append_assoc. reflexivity.
Qed.

(** X1: a conversational item whose content is not a list (a plain string, or
    any other value, or none at all, which counts as the empty string) is
    rendered as the bracketed upper-cased role, a space, and the content as
    [str()] gives it, and that is a whole line of the event's rendering. *)
Theorem format_event_plain_content
    (d it conv : list (string * value)) (items : list value) (role s : string) :
  lookup "payload" d = Some (VList items) ->
  In (VDict it) items ->
  lookup "conversational" it = Some (VDict conv) ->
  py_upper (dict_get conv "role" (VStr "UNKNOWN")) = Ok role ->
  (forall parts, dict_get conv "content" (VStr "") <> VList parts) ->
  format_event (VDict d) = Ok s ->
  exists before after,
    s = before ++ nl ++ "  "
        ++ ("[" ++ role ++ "] " ++ py_str (dict_get conv "content" (VStr ""))) ++ after
    /\ (after = "" \/ exists rest, after = nl ++ rest).
Proof.
  intros Hp Hin Hc Hr Hnl Hs.
  apply (format_event_line_member d items (VDict it) _ s Hp Hin); [|exact Hs].
  unfold payload_line. cbn [py_contains bind]. unfold has_key. rewrite Hc.
  cbn [py_getitem]. rewrite Hc. cbn [bind py_get]. rewrite Hr. cbn [bind].
  destruct (dict_get conv "content" (VStr "")) eqn:E; try reflexivity.
  now destruct (Hnl l).
Qed.

(** The sample event of a user: its content is the string "hi". *)
Lemma format_event_plain_content_witness :
  exists before after,
    "Event e1 (2024-05-01 10:00:00+00:00):" ++ nl ++ "  [USER] hi"
    = before ++ nl ++ "  " ++ ("[" ++ "USER" ++ "] " ++ py_str (VStr "hi")) ++ after
    /\ (after = "" \/ exists rest, after = nl ++ rest).
Proof.
  apply (format_event_plain_content (ev_fields "e1" "user" (VStr "hi"))
           [("conversational", VDict [("role", VStr "user"); ("content", VStr "hi")])]
           [("role", VStr "user"); ("content", VStr "hi")]
           [VDict [("conversational", VDict [("role", VStr "user"); ("content", VStr "hi")])]]
           "USER").
  - reflexivity.
  - simpl. now left.
  - reflexivity.
  - reflexivity.
  - intros parts. discriminate.
  - reflexivity.
Defined.

(** X2: when the loop body gives an outcome for every item of the payload,
    the rendering is the prefix and then one indented line for each
    conversational item, in the order of the payload, the other items leaving
    nothing; with no conversational item it is the placeholder. *)
Theorem format_event_lines_in_order (d : list (string * value)) (items : list value)
    (lines : list (option string)) :
  lookup "payload" d = Some (VList items) ->
  Forall2 (fun item line => payload_line item = Ok line) items lines ->
  format_event (VDict d)
  = Ok ("Event " ++ match lookup "eventId" d with Some v => py_str v | None => "unknown" end
        ++ " (" ++ match lookup "createdAt" d with Some v => py_str v | None => "" end
        ++ ")"
        ++ match kept lines with
           | [] => ": (no conversational content)"
           | _ :: _ => ":" ++ nl ++ join nl (map (fun line => "  " ++ line) (kept lines))
           end)
  /\ List.length (kept lines) = List.length (filter is_conversational items).
Proof.
  intros Hp Hall. split; [|now apply kept_length].
  unfold format_event. cbn [py_get bind].
  replace (dict_get d "payload" (VList [])) with (VList items)
    by (unfold dict_get; now rewrite Hp).
  cbn [py_iter bind]. rewrite (payload_lines_kept _ _ Hall []). cbn [app bind].
  rewrite event_head_eq.
  destruct (kept lines); rewrite !append_assoc; reflexivity.
Qed.

(** The sample event between a blob and an item without content. *)
Lemma format_event_lines_in_order_witness :
  format_event
    (VDict [("eventId", VStr "e8");
            ("payload", VList [blob_item; VDict demo_item;
                               VDict [("conversational", VDict [])]])])
  = Ok ("Event " ++ "e8" ++ " (" ++ "" ++ ")"
        ++ match kept [None; Some "[ASSISTANT] hello there"; Some "[UNKNOWN] "] with
           | [] => ": (no conversational content)"
           | _ :: _ =>
               ":" ++ nl
               ++ join nl (map (fun line => "  " ++ line)
                             (kept [None; Some "[ASSISTANT] hello there"; Some "[UNKNOWN] "]))
           end)
  /\ List.length (kept [None; Some "[ASSISTANT] hello there"; Some "[UNKNOWN] "])
     = List.length (filter is_conversational
                      [blob_item; VDict demo_item; VDict [("conversational", VDict [])]]).
Proof.
  apply (format_event_lines_in_order
           [("eventId", VStr "e8");
            ("payload", VList [blob_item; VDict demo_item;
                               VDict [("conversational", VDict [])]])]).
  - reflexivity.
  - repeat constructor.
Defined.

Lemma payload_lines_raise (pre post : list value) (bad : value) (e : exn) :
  Forall (fun item => exists line, payload_line item = Ok line) pre ->
  payload_line bad = Raise e ->
  forall acc, payload_lines (pre ++ bad :: post) acc = Raise e.
Proof.
  intros Hpre Hbad. induction Hpre as [|item pre (line & Hl) _ IH]; intros acc;
    cbn [app payload_lines].
  - now rewrite Hbad.
  - rewrite Hl. cbn [bind]. apply IH.
Qed.

(** X3: one payload item the loop body cannot take spoils the whole event:
    [format_event] raises what the first such item raises, whatever the items
    before it rendered and whatever follows. *)
Theorem format_event_first_error (d : list (string * value)) (pre post : list value)
    (bad : value) (e : exn) :
  lookup "payload" d = Some (VList (pre ++ bad :: post)) ->
  Forall (fun item => exists line, payload_line item = Ok line) pre ->
  payload_line bad = Raise e ->
  format_event (VDict d) = Raise e.
Proof.
  intros Hp Hpre Hbad. unfold format_event. cbn [py_get bind].
  replace (dict_get d "payload" (VList [])) with (VList (pre ++ bad :: post))
    by (unfold dict_get; now rewrite Hp).
  cbn [py_iter bind]. now rewrite (payload_lines_raise pre post bad e Hpre Hbad).
Qed.

(** A number between two items that render. *)
Lemma format_event_first_error_witness :
  format_event (VDict [("payload", VList [VDict demo_item; VInt 3; blob_item])])
  = Raise TypeError.
Proof.
  apply (format_event_first_error
           [("payload", VList [VDict demo_item; VInt 3; blob_item])]
           [VDict demo_item] [blob_item] (VInt 3)).
  - reflexivity.
  - repeat constructor. eexists. reflexivity.
  - reflexivity.
Defined.

(** X4: [format_event] reads the fields [eventId], [createdAt] and [payload]
    and nothing else of the event: two events that agree on these three are
    rendered alike, whatever else they hold and in whatever order. *)
Theorem format_event_reads_three_fields (d d' : list (string * value)) :
  (forall k, In k ["eventId"; "createdAt"; "payload"] -> lookup k d = lookup k d') ->
  format_event (VDict d) = format_event (VDict d').
Proof.
  intros H. unfold format_event. cbn [py_get bind]. unfold dict_get.
  rewrite (H "eventId"), (H "createdAt"), (H "payload") by (simpl; auto).
  reflexivity.
Qed.

(** The sample event and its shuffled copy. *)
Lemma format_event_reads_three_fields_witness :
  format_event (VDict demo_fields) = format_event (VDict demo_fields_shuffled).
Proof.
  apply format_event_reads_three_fields.
  intros k [<- | [<- | [<- | []]]]; reflexivity.
Defined.

(** ** fetch_history: what a run prints *)

Lemma print_events_blocks (evs : list value) (renderings : list string) :
  Forall2 (fun e r => format_event e = Ok r) evs renderings ->
  forall w, print_events evs w = Some (printed w (event_blocks renderings), Ok tt).
Proof.
  induction 1 as [|e r evs rs H _ IH]; intros w; cbn [print_events].
  - unfold ret, printed, event_blocks. cbn. rewrite app_nil_r. now destruct w.
  - unfold io_bind, lift. rewrite H. unfold print. rewrite IH, !printed_printed.
    reflexivity.
Qed.

Lemma print_events_raise (pre post : list value) (bad : value) (renderings : list string)
    (e : exn) :
  Forall2 (fun ev r => format_event ev = Ok r) pre renderings ->
  format_event bad = Raise e ->
  forall w,
    print_events (pre ++ bad :: post) w = Some (printed w (event_blocks renderings), Raise e).
Proof.
  intros Hpre Hbad. induction Hpre as [|ev r pre rs H _ IH]; intros w;
    cbn [app print_events].
  - unfold io_bind, lift. rewrite Hbad. unfold printed, event_blocks. cbn.
    rewrite app_nil_r. now destruct w.
  - unfold io_bind, lift. rewrite H. unfold print. rewrite IH, !printed_printed.
    reflexivity.
Qed.

Lemma event_blocks_length (renderings : list string) :
  List.length (event_blocks renderings) = 2 * List.length renderings.
Proof.
  induction renderings as [|r rs IH]; [reflexivity|].
  change (event_blocks (r :: rs)) with (r :: "" :: event_blocks rs).
  change (List.length (r :: "" :: event_blocks rs))
    with (S (S (List.length (event_blocks rs)))).
  rewrite IH. change (List.length (r :: rs)) with (S (List.length rs)). lia.
Qed.

Section FetchHistoryOutput.

Variable iterator : Type.
Variable paginate : client -> string -> request -> iterator.
Variable next : iterator -> step iterator.
Variable resume_token_of : iterator -> value.

Local Abbreviation fetch_history := (fetch_history iterator paginate next resume_token_of).
Local Abbreviation main := (main iterator paginate next resume_token_of).

(** A run in closed form, when the first pull gives a page. *)
Lemma fetch_history_on_page (fuel : nat) (m r u s : string) (lim : Z)
    (tok : option string) (page : value) (it : iterator) :
  next (paginate (agentcore_client r) "list_events" (list_events_request m u s lim tok))
  = Yield page it ->
  fetch_history (S fuel) m r u s lim tok start
  = match (events <- py_get page "events" (VList []) ;; py_iter events) with
    | Ok evs =>
        show_page u s evs (resume_token_of it)
          (logged start [CreateClient (agentcore_client r);
                         Paginate "list_events" (list_events_request m u s lim tok);
                         NextPage])
    | Raise e =>
        Some (logged start [CreateClient (agentcore_client r);
                            Paginate "list_events" (list_events_request m u s lim tok);
                            NextPage],
              Raise e)
    end.
Proof.
  intros H. unfold fetch_history, io_bind. rewrite fetch_page_run. cbv zeta. rewrite H.
  destruct (py_get page "events" (VList [])) as [events|e]; cbn [bind]; [|reflexivity].
  destruct (py_iter events) as [evs|e]; reflexivity.
Qed.

(** X5: when the first page holds events and each of them renders, the run
    prints, in this order and nothing else: the header naming user and
    session, each event's rendering followed by an empty line, the summary
    with the number of events of the page, and then the two lines of the
    cursor notice or the "No more events." line. *)
Theorem fetch_history_output (fuel : nat) (m r u s : string) (lim : Z)
    (tok : option string) (page events : value) (it : iterator) (evs : list value)
    (renderings : list string) :
  next (paginate (agentcore_client r) "list_events" (list_events_request m u s lim tok))
  = Yield page it ->
  py_get page "events" (VList []) = Ok events ->
  py_iter events = Ok evs ->
  evs <> [] ->
  Forall2 (fun e rendering => format_event e = Ok rendering) evs renderings ->
  exists w,
    fetch_history (S fuel) m r u s lim tok start = Some (w, Ok tt)
    /\ stdout w
       = (header u s :: event_blocks renderings
          ++ summary (List.length evs)
          :: (if truthy (resume_token_of it)
              then [more_notice; cursor_line (resume_token_of it)]
              else [no_more_notice]))%list
    /\ List.length (stdout w)
       = 2 * List.length evs + (if truthy (resume_token_of it) then 4 else 3).
Proof.
  intros Hn Hp Hi Hne Hall. rewrite (fetch_history_on_page _ _ _ _ _ _ _ _ _ Hn).
  rewrite Hp. cbn [bind]. rewrite Hi.
  unfold show_page. destruct evs as [|e0 evs0] eqn:E; [easy|]. rewrite <- E in *.
  unfold io_bind, print at 1. rewrite (print_events_blocks _ _ Hall).
  assert (Hlen : List.length (event_blocks renderings) = 2 * List.length evs)
    by (rewrite event_blocks_length; f_equal; symmetry; eapply Forall2_length, Hall).
  unfold print. destruct (truthy (resume_token_of it)); rewrite !printed_printed;
    (eexists; split; [reflexivity|]); cbn [stdout printed logged start app];
    rewrite <- ?app_assoc; cbn [app]; (split; [reflexivity|]);
    change (@List.length string) with (@Datatypes.length string);
    cbn [Datatypes.length]; rewrite length_app, Hlen; cbn [Datatypes.length]; lia.
Qed.

(** X6: when an event of the page does not render, the run has printed the
    header and the events before it, each with its empty line, and ends with
    the exception of [format_event]; no summary and no cursor notice is
    printed, and the events after it are not looked at. *)
Theorem fetch_history_stops_at_unrendered_event (fuel : nat) (m r u s : string) (lim : Z)
    (tok : option string) (page events : value) (it : iterator)
    (pre post : list value) (bad : value) (renderings : list string) (e : exn) :
  next (paginate (agentcore_client r) "list_events" (list_events_request m u s lim tok))
  = Yield page it ->
  py_get page "events" (VList []) = Ok events ->
  py_iter events = Ok (pre ++ bad :: post)%list ->
  Forall2 (fun ev rendering => format_event ev = Ok rendering) pre renderings ->
  format_event bad = Raise e ->
  exists w,
    fetch_history (S fuel) m r u s lim tok start = Some (w, Raise e)
    /\ stdout w = header u s :: event_blocks renderings.
Proof.
  intros Hn Hp Hi Hpre Hbad. rewrite (fetch_history_on_page _ _ _ _ _ _ _ _ _ Hn).
  rewrite Hp. cbn [bind]. rewrite Hi.
  unfold show_page. destruct (pre ++ bad :: post)%list as [|e0 evs0] eqn:E.
  { now destruct pre. }
  rewrite <- E. unfold io_bind, print at 1.
  rewrite (print_events_raise _ _ _ _ _ Hpre Hbad), printed_printed.
  eexists. split; reflexivity.
Qed.

(** X7: a page that is no mapping, or whose [events] cannot be run through,
    ends the run with the exception of that step, after the one page request
    and with nothing printed. *)
Theorem fetch_history_malformed_page (fuel : nat) (m r u s : string) (lim : Z)
    (tok : option string) (page : value) (it : iterator) (e : exn) :
  next (paginate (agentcore_client r) "list_events" (list_events_request m u s lim tok))
  = Yield page it ->
  (events <- py_get page "events" (VList []) ;; py_iter events) = Raise e ->
  exists w,
    fetch_history (S fuel) m r u s lim tok start = Some (w, Raise e)
    /\ stdout w = []
    /\ page_requests w = 1.
Proof.
  intros Hn He. rewrite (fetch_history_on_page _ _ _ _ _ _ _ _ _ Hn), He.
  eexists. repeat split.
Qed.

(** X8: when the iterator yields no page at all, or yields a mapping that has
    no [events], the run prints "No events found." and nothing else, whatever
    resume token the iterator shows. *)
Theorem fetch_history_no_page_or_no_events (fuel : nat) (m r u s : string) (lim : Z)
    (tok : option string) :
  (next (paginate (agentcore_client r) "list_events" (list_events_request m u s lim tok))
   = StopIteration
   \/ exists pd it,
        next (paginate (agentcore_client r) "list_events" (list_events_request m u s lim tok))
        = Yield (VDict pd) it
        /\ lookup "events" pd = None) ->
  exists w,
    fetch_history (S fuel) m r u s lim tok start = Some (w, Ok tt)
    /\ stdout w = ["No events found."]
    /\ page_requests w = 1.
Proof.
  intros [H | (pd & it & H & Hk)].
  - unfold fetch_history, io_bind. rewrite fetch_page_run. cbv zeta. rewrite H.
    eexists. repeat split.
  - rewrite (fetch_history_on_page _ _ _ _ _ _ _ _ _ H).
    cbn [py_get bind]. unfold dict_get. rewrite Hk. eexists. repeat split.
Qed.

(** An empty [--next-token] is no token: the request carries no
    [StartingToken] and the run is the run without the flag, from the start of
    the conversation. *)
Lemma empty_next_token_starts_over (fuel : nat) (m r u s : string) (lim : Z) (w : world) :
  StartingToken (list_events_request m u s lim (Some "")) = None
  /\ fetch_history fuel m r u s lim (Some "") w = fetch_history fuel m r u s lim None w.
Proof. split; reflexivity. Qed.

(** X9: for every command line that [argparse] accepts (the two required
    flags given, [--limit] an integer when given), [main] makes one client, for
    eu-central-1, asks [list_events] of the memory aqua_memory_v1-ou5CPqEFsu
    for the actor and session of [--user-id] and [--session-id], with payloads,
    a page size of [--limit] or 20 and [--next-token] as starting token when
    it is not empty, and pulls one page; the run ends. *)
Theorem main_request_for_all_flags (fuel : nat) (f : flags) :
  exists w res,
    main (S fuel) f start = Some (w, res)
    /\ api_log w
       = [CreateClient {| service_name := "bedrock-agentcore";
                          region_name := "eu-central-1" |};
          Paginate "list_events"
            {| memoryId := "aqua_memory_v1-ou5CPqEFsu";
               actorId := given_user_id f;
               sessionId := given_session_id f;
               includePayloads := true;
               PageSize := match given_limit f with Some n => n | None => 20%Z end;
               StartingToken := match given_next_token f with
                                | Some "" => None
                                | t => t
                                end |};
          NextPage].
Proof.
  destruct (main_api_log iterator paginate next resume_token_of fuel f)
    as (w & res & E & Hlog).
  exists w, res. split; [exact E|]. rewrite Hlog.
  unfold agentcore_client, list_events_request, starting_token.
  destruct (given_next_token f) as [[|c t]|]; reflexivity.
Qed.

End FetchHistoryOutput.

(** The first page of the sample conversation. *)
Lemma fetch_history_output_witness :
  exists w,
    demo_fetch_history 1 "m" "eu-central-1" "u1" "s1" 2%Z None start = Some (w, Ok tt)
    /\ stdout w
       = (header "u1" "s1" :: event_blocks demo_renderings
          ++ summary (List.length demo_first_events)
          :: (if truthy (Store.resume_token demo_after)
              then [more_notice; cursor_line (Store.resume_token demo_after)]
              else [no_more_notice]))%list
    /\ List.length (stdout w)
       = 2 * List.length demo_first_events
         + (if truthy (Store.resume_token demo_after) then 4 else 3).
Proof.
  apply (fetch_history_output Store.iterator demo_paginate Store.next Store.resume_token
           0 "m" "eu-central-1" "u1" "s1" 2%Z None demo_page (VList demo_first_events)
           demo_after demo_first_events demo_renderings).
  - reflexivity.
  - reflexivity.
  - reflexivity.
  - discriminate.
  - repeat constructor.
Defined.

(** A page of three events, the second with a number for a text. *)
Lemma fetch_history_stops_at_unrendered_event_witness :
  exists w,
    fetch_history Store.iterator broken_paginate Store.next Store.resume_token
      1 "m" "eu-central-1" "u1" "s1" 5%Z None start
    = Some (w, Raise TypeError)
    /\ stdout w
       = header "u1" "s1"
         :: event_blocks ["Event e1 (2024-05-01 10:00:00+00:00):" ++ nl ++ "  [USER] hi"].
Proof.
  apply (fetch_history_stops_at_unrendered_event Store.iterator broken_paginate Store.next
           Store.resume_token 0 "m" "eu-central-1" "u1" "s1" 5%Z None broken_page
           (VList broken_conversation) broken_after
           [ev "e1" "user" (VStr "hi")] [ev "e3" "user" (VStr "bye")] numeric_text_event).
  - reflexivity.
  - reflexivity.
  - reflexivity.
  - repeat constructor.
  - reflexivity.
Defined.

(** A page whose [events] is None. *)
Lemma fetch_history_malformed_page_witness :
  exists w,
    fetch_history Canned.iterator (Canned.paginate [VDict [("events", VNone)]]) Canned.next
      Canned.resume_token 1 "m" "eu-central-1" "u1" "s1" 20%Z None start
    = Some (w, Raise TypeError)
    /\ stdout w = []
    /\ page_requests w = 1.
Proof.
  apply (fetch_history_malformed_page Canned.iterator
           (Canned.paginate [VDict [("events", VNone)]]) Canned.next Canned.resume_token
           0 "m" "eu-central-1" "u1" "s1" 20%Z None (VDict [("events", VNone)]) []).
  - reflexivity.
  - reflexivity.
Defined.

(** A page that holds a token and no [events]. *)
Lemma fetch_history_no_page_or_no_events_witness :
  exists w,
    fetch_history Canned.iterator (Canned.paginate [VDict [("nextToken", VStr "abc")]])
      Canned.next Canned.resume_token 1 "m" "eu-central-1" "u1" "s1" 20%Z None start
    = Some (w, Ok tt)
    /\ stdout w = ["No events found."]
    /\ page_requests w = 1.
Proof.
  apply (fetch_history_no_page_or_no_events Canned.iterator
           (Canned.paginate [VDict [("nextToken", VStr "abc")]]) Canned.next
           Canned.resume_token 0 "m" "eu-central-1" "u1" "s1" 20%Z None).
  right. exists [("nextToken", VStr "abc")], []. split; reflexivity.
Defined.

(** ** The agent entrypoints *)

(** X10: the session identifier of an invocation.  A truthy [session_id] of
    the context is the identifier, and the payload is then not looked at,
    whatever it is.  Otherwise, for a payload mapping, a truthy [session_id]
    of the payload is the identifier, and when that is missing or not truthy
    either the identifier is "default"; for a payload that is no mapping the
    lookup raises AttributeError.  So an identifier that is found is truthy:
    never None and never the empty string. *)
Theorem invoke_session_id_truthy (context_session_id : option value) (payload : value) :
  let from_context := match context_session_id with Some v => v | None => VNone end in
  (truthy from_context = true ->
   invoke_session_id context_session_id payload = Ok from_context)
  /\ (truthy from_context = false ->
      forall d, payload = VDict d ->
        let from_payload :=
          match lookup "session_id" d with Some v => v | None => VNone end in
        (truthy from_payload = true ->
         invoke_session_id context_session_id payload = Ok from_payload)
        /\ (truthy from_payload = false ->
            invoke_session_id context_session_id payload = Ok (VStr "default")))
  /\ (truthy from_context = false ->
      (forall d, payload <> VDict d) ->
      invoke_session_id context_session_id payload = Raise AttributeError)
  /\ (forall v, invoke_session_id context_session_id payload = Ok v -> truthy v = true).
Proof.
  cbv zeta. unfold invoke_session_id.
  destruct (truthy match context_session_id with Some v => v | None => VNone end) eqn:Hc.
  - repeat split; try discriminate.
    + intros v [= <-]. exact Hc.
  - split; [discriminate|]. split; [|split].
    + intros _ d ->. cbn [py_get bind]. unfold dict_get.
      destruct (truthy match lookup "session_id" d with Some v => v | None => VNone end)
        eqn:Hp; split; intros; try discriminate; reflexivity.
    + intros _ Hnd. destruct payload; try reflexivity. now destruct (Hnd d).
    + intros v. destruct payload; cbn [py_get bind]; try discriminate.
      destruct (truthy (dict_get d "session_id" VNone)) eqn:Hp; intros [= <-];
        [exact Hp | reflexivity].
Qed.

(** X11: the messages [call_model] hands to the model.  A state whose first
    message is a system message, whichever, is handed on as it is; a state
    without messages, or whose first message is of another class, gets the
    system prompt in front.  So the model's messages always begin with a
    system message, doing it twice changes nothing, and a state that was
    handed on once gives the same call to the model. *)
Theorem model_input_system_first (ainvoke : list LangGraph.message -> result LangGraph.message)
    (messages : list LangGraph.message) :
  LangGraph.model_input []
  = [LangGraph.SystemMessage
       (VStr "You are a helpful assistant with code execution capabilities. Use tools when appropriate.")]
  /\ (forall content rest,
        messages = LangGraph.SystemMessage content :: rest ->
        LangGraph.model_input messages = messages)
  /\ (forall first rest,
        messages = first :: rest ->
        (forall content, first <> LangGraph.SystemMessage content) ->
        LangGraph.model_input messages
        = LangGraph.SystemMessage
            (VStr "You are a helpful assistant with code execution capabilities. Use tools when appropriate.")
          :: messages)
  /\ (exists content rest,
        LangGraph.model_input messages = LangGraph.SystemMessage content :: rest)
  /\ LangGraph.model_input (LangGraph.model_input messages) = LangGraph.model_input messages
  /\ LangGraph.call_model ainvoke (LangGraph.model_input messages)
     = LangGraph.call_model ainvoke messages.
Proof.
  assert (Hidem : LangGraph.model_input (LangGraph.model_input messages)
                  = LangGraph.model_input messages).
  { unfold LangGraph.model_input. destruct messages as [|[] rest]; reflexivity. }
  split; [reflexivity|]. split; [now intros content rest ->|]. split; [|split; [|split]].
  - intros first rest -> Hns. unfold LangGraph.model_input.
    destruct first; try reflexivity. now destruct (Hns content).
  - unfold LangGraph.model_input. destruct messages as [|[] rest]; cbn; eauto.
  - exact Hidem.
  - unfold LangGraph.call_model. now rewrite Hidem.
Qed.

Lemma last_message_snoc (pre : list LangGraph.message) (m : LangGraph.message) :
  LangGraph.last_message (pre ++ [m]) = Ok m.
Proof.
  unfold LangGraph.last_message. now rewrite rev_app_distr.
Qed.

(** X12: [should_continue] looks at the last message only: on a state with
    messages it answers "tools" when the last one is a message of the model
    that holds tool calls and "__end__" otherwise, whatever came before; on a
    state without messages it raises IndexError. *)
Theorem should_continue_last_message (pre : list LangGraph.message) (m : LangGraph.message) :
  LangGraph.should_continue (pre ++ [m]) = LangGraph.should_continue [m]
  /\ (LangGraph.should_continue (pre ++ [m]) = Ok "tools"
      \/ LangGraph.should_continue (pre ++ [m]) = Ok "__end__")
  /\ (LangGraph.should_continue (pre ++ [m]) = Ok "tools"
      <-> exists content call calls, m = LangGraph.AIMessage content (call :: calls))
  /\ LangGraph.should_continue []
     = Raise (External "IndexError" "list index out of range").
Proof.
  unfold LangGraph.should_continue. rewrite last_message_snoc.
  cbn [LangGraph.last_message rev app bind].
  split; [reflexivity|]. split; [|split; [|reflexivity]].
  - destruct m as [| | c [|call calls] |]; auto.
  - split.
    + destruct m as [| | c [|call calls] |]; try discriminate. eauto.
    + intros (c & call & calls & ->). reflexivity.
Qed.
